(** * Verification of the jobly data-access layer

    Shallow embedding of [sqlForPartialUpdate] (helpers/sql, shipped at the
    end of models/company.js), [Company.filter] (models/company.js) and
    [Job.filter] (models/job.js), and the other model functions of those
    files: [create], [get], [update] and [remove] of [Company] and [Job]. *)

From Stdlib Require Import ZArith Ascii String Lia.
From stdpp Require Import base gmap strings list.

(* ================================================================== *)
(** ** JavaScript values *)

(** The JavaScript values that reach the builders (request bodies and
    filter arguments).  Numbers are integers in this model. *)
Inductive JSVal : Type :=
| JUndefined
| JNull
| JBool (b : bool)
| JNum (z : Z)
| JStr (s : string).

(** Decimal printing of a natural number, as a template literal [${n}]
    prints it. *)
Fixpoint digits_aux (fuel n : nat) (acc : string) : string :=
  match fuel with
  | O => acc
  | S f =>
      let acc' := String (ascii_of_nat (48 + Nat.modulo n 10)) acc in
      if Nat.ltb n 10 then acc' else digits_aux f (Nat.div n 10) acc'
  end.

Definition string_of_nat (n : nat) : string := digits_aux (S n) n EmptyString.

Definition string_of_Z (z : Z) : string :=
  if Z.ltb z 0 then String.append "-" (string_of_nat (Z.to_nat (- z)))
  else string_of_nat (Z.to_nat z).

(* ================================================================== *)
(** ** Clause text

    A generated clause is kept as the sequence of pieces the code
    concatenates: literal text, and numbered placeholders [$n] written by the
    template [$${n}]. *)
Inductive token : Type :=
| Lit (s : string)
| Ph (n : nat).

Definition render_token (t : token) : string :=
  match t with
  | Lit s => s
  | Ph n => String.append "$" (string_of_nat n)
  end.

Fixpoint render (ts : list token) : string :=
  match ts with
  | [] => EmptyString
  | t :: rest => String.append (render_token t) (render rest)
  end.

(** The placeholder numbers of a clause, in textual order. *)
Fixpoint placeholders (ts : list token) : list nat :=
  match ts with
  | [] => []
  | Ph n :: rest => n :: placeholders rest
  | Lit _ :: rest => placeholders rest
  end.

(** [Array.prototype.join(sep)] over clause fragments. *)
Fixpoint join (sep : string) (parts : list (list token)) : list token :=
  match parts with
  | [] => []
  | [p] => p
  | p :: rest => p ++ Lit sep :: join sep rest
  end.

(* ================================================================== *)
(** ** Errors *)

Inductive Error : Type :=
| BadRequestError (msg : string)
| NotFoundError (msg : string).

(* ================================================================== *)
(** ** [sqlForPartialUpdate] *)

(** The update payload [dataToUpdate], as its own enumerable properties in
    enumeration order: [Object.keys] and [Object.values] both list them in
    this order. *)
Abbreviation payload := (list (string * JSVal)).

(** The translation object [jsToSql]: its own properties. *)
Abbreviation table := (gmap string string).

(** The property names every plain object inherits from
    [Object.prototype]. *)
Definition object_prototype_keys : list string :=
  ["constructor"; "__proto__"; "hasOwnProperty"; "isPrototypeOf";
   "propertyIsEnumerable"; "toString"; "valueOf"; "toLocaleString";
   "__defineGetter__"; "__defineSetter__"; "__lookupGetter__";
   "__lookupSetter__"]%string.

Definition is_prototype_key (k : string) : bool :=
  bool_decide (k ∈ object_prototype_keys).

(** The double quote character. *)
Definition dq : string := String (ascii_of_nat 34) EmptyString.

(** [`${jsToSql[colName] || colName}`]: the own entry if it is truthy (a
    non-empty string); otherwise, an inherited [Object.prototype] member
    (always truthy) printed by the template literal; otherwise the key. *)
Definition column_name (jsToSql : table) (colName : string) : string :=
  match jsToSql !! colName with
  | Some c => if String.eqb c EmptyString then colName else c
  | None =>
      if is_prototype_key colName then
        if String.eqb colName "__proto__" then "[object Object]"
        else String.append "function "
               (String.append colName "() { [native code] }")
      else colName
  end.

(** One element of [keys.map((colName, idx) => `"${...}"=$${idx + 1}`)]. *)
Definition col_fragment (jsToSql : table) (colName : string) (idx : nat)
  : list token :=
  [Lit (String.append dq (String.append (column_name jsToSql colName)
                                         (String.append dq "=")));
   Ph (idx + 1)].

(** [Array.prototype.map] with the index argument. *)
Fixpoint map_idx {A B} (f : A -> nat -> B) (start : nat) (l : list A)
  : list B :=
  match l with
  | [] => []
  | x :: rest => f x start :: map_idx f (S start) rest
  end.

Record partial_update := {
  setCols : list token;
  values : list JSVal
}.

Definition sqlForPartialUpdate (dataToUpdate : payload) (jsToSql : table)
  : Error + partial_update :=
  let keys := map fst dataToUpdate in
  if Nat.eqb (length keys) 0 then inl (BadRequestError "No data")
  else
    let cols := map_idx (col_fragment jsToSql) 0 keys in
    inr {| setCols := join ", " cols;
           values := map snd dataToUpdate |}.

Example sqlForPartialUpdate_doc :
  match sqlForPartialUpdate [("firstName", JStr "Aliya"); ("age", JNum 32)]%string
          {[ "firstName" := "first_name" ]}%string with
  | inr r => (render (setCols r), values r)
  | inl _ => (EmptyString, [])
  end = (dq ++ "first_name" ++ dq ++ "=$1, " ++ dq ++ "age" ++ dq ++ "=$2",
         [JStr "Aliya"; JNum 32])%string.
Proof. reflexivity. Qed.

(* ================================================================== *)
(** ** Reads against the store

    [db.query(text, values)] is the only effect of the filters.  A
    computation reads from a store (the rows the relational database returns
    for a call), logs every call it makes, and either throws or returns. *)

Record QueryCall := {
  q_text : list token;
  q_values : list JSVal
}.

(** The object [db.query] resolves to. *)
Record query_result (R : Type) := { rows : list R }.
Arguments rows {R} _.

Definition store (R : Type) := QueryCall -> list R.

Definition M (R A : Type) := store R -> list QueryCall * (Error + A).

Definition ret {R A} (a : A) : M R A := fun _ => ([], inr a).

Definition throw {R A} (e : Error) : M R A := fun _ => ([], inl e).

Definition bind {R A B} (m : M R A) (k : A -> M R B) : M R B :=
  fun db =>
    match m db with
    | (l1, inl e) => (l1, inl e)
    | (l1, inr a) => let '(l2, r) := k a db in (l1 ++ l2, r)
    end.

Definition db_query {R} (q : QueryCall) : M R (query_result R) :=
  fun db => ([q], inr {| rows := db q |}).

Notation "x <- m ;; k" := (bind m (fun x => k))
  (at level 100, m at next level, right associativity).

(** JavaScript [a > b] on two number-or-undefined operands: [undefined]
    converts to NaN and every comparison with NaN is false. *)
Definition js_gt (a b : option Z) : bool :=
  match a, b with
  | Some x, Some y => Z.gtb x y
  | _, _ => false
  end.

(** Truthiness of a number-or-undefined and of a string-or-undefined. *)
Definition truthy_num (a : option Z) : bool :=
  match a with Some x => negb (Z.eqb x 0) | None => false end.

Definition truthy_str (a : option string) : bool :=
  match a with Some s => negb (String.eqb s EmptyString) | None => false end.

(** [parseInt] applied to an integral number returns it. *)
Definition parseInt (z : Z) : Z := z.

(** [query += ` AND ... $${queryValues.length + 1}`; queryValues.push(v)]. *)
Definition add_filter (st : list token * list JSVal) (pre : string) (v : JSVal)
  : list token * list JSVal :=
  let '(query, queryValues) := st in
  (query ++ [Lit pre; Ph (length queryValues + 1)], queryValues ++ [v]).

Definition like_pattern (s : string) : string :=
  String.append "%" (String.append s "%").

(* ================================================================== *)
(** ** [Company.filter] *)

Record CompanyRow := {
  c_handle : string;
  c_name : string;
  c_description : string;
  c_numEmployees : option Z;
  c_logoUrl : option string
}.

(** The destructured argument [{ name, minEmployees, maxEmployees }];
    [None] is [undefined]. *)
Record company_criteria := {
  name : option string;
  minEmployees : option Z;
  maxEmployees : option Z
}.

(** The initial [query] text (template whitespace collapsed). *)
Definition company_base : string :=
  ("SELECT handle, name, description, num_employees AS " ++ dq ++
   "numEmployees" ++ dq ++ ", logo_url AS " ++ dq ++ "logoUrl" ++ dq ++
   " FROM companies WHERE 1 = 1")%string.

Definition company_query (c : company_criteria) : list token * list JSVal :=
  let st := ([Lit company_base], []) in
  let st := match name c with
            | Some n => add_filter st " AND name ILIKE " (JStr (like_pattern n))
            | None => st
            end in
  let st := match minEmployees c with
            | Some m => add_filter st " AND num_employees >= " (JNum (parseInt m))
            | None => st
            end in
  match maxEmployees c with
  | Some m => add_filter st " AND num_employees <= " (JNum (parseInt m))
  | None => st
  end.

Definition range_msg : string :=
  "Min employees cannot be greater than max employees".

Definition company_filter (c : company_criteria)
  : M CompanyRow (list CompanyRow) :=
  let '(query, queryValues) := company_query c in
  if match minEmployees c, maxEmployees c with
     | Some _, Some _ => js_gt (minEmployees c) (maxEmployees c)
     | _, _ => false
     end
  then throw (BadRequestError range_msg)
  else
    companiesRes <- db_query {| q_text := query; q_values := queryValues |} ;;
    if Nat.eqb (length (rows companiesRes)) 0 then
      if js_gt (minEmployees c) (maxEmployees c)
      then throw (BadRequestError range_msg)
      else if truthy_num (minEmployees c) then
        throw (NotFoundError
          ("No companies found with less than " ++
           match minEmployees c with
           | Some m => string_of_Z m
           | None => "undefined"
           end ++ " employees")%string)
      else if truthy_str (name c) then
        throw (NotFoundError
          ("No companies found with name: " ++
           match name c with Some n => n | None => "undefined" end)%string)
      else ret (rows companiesRes)
    else ret (rows companiesRes).

(* ================================================================== *)
(** ** [Job.filter] *)

Record JobRow := {
  j_id : Z;
  j_title : string;
  j_salary : option Z;
  j_equity : option string;
  j_companyHandle : string
}.

(** The destructured argument [{ title, minSalary, hasEquity }]; [None] is
    [undefined].  Any other property of the argument (a [maxSalary], say) is
    dropped by the destructuring. *)
Record job_criteria := {
  title : option string;
  minSalary : option Z;
  hasEquity : option bool
}.

Definition job_base : string :=
  ("SELECT id, title, salary, equity, company_handle AS " ++ dq ++
   "companyHandle" ++ dq ++ " FROM jobs WHERE 1=1")%string.

Definition job_query (c : job_criteria) : list token * list JSVal :=
  let st := ([Lit job_base], []) in
  let st := match title c with
            | Some t => add_filter st " AND title ILIKE " (JStr (like_pattern t))
            | None => st
            end in
  let st := match minSalary c with
            | Some m => add_filter st " AND salary >= " (JNum m)
            | None => st
            end in
  (* [if (hasEquity === true)]: the text gets no placeholder, but the value
     is still pushed. *)
  match hasEquity c with
  | Some true =>
      let '(query, queryValues) := st in
      (query ++ [Lit " AND equity > 0"], queryValues ++ [JBool true])
  | _ => st
  end.

(** [jobsRes] is an object, hence truthy. *)
Definition object_truthy {R} (r : query_result R) : bool := true.

(** [jobsRes.rows.salary]: an Array has no [salary] property, so this reads
    [undefined]. *)
Definition rows_salary (rs : list JobRow) : option Z := None.

Definition job_filter (c : job_criteria) : M JobRow (list JobRow) :=
  let '(query, queryValues) := job_query c in
  jobsRes <- db_query {| q_text := query; q_values := queryValues |} ;;
  if Nat.eqb (length (rows jobsRes)) 0 then
    throw (BadRequestError "No jobs found")
  else if negb (object_truthy jobsRes) then
    throw (NotFoundError "No jobs found")
  else if js_gt (minSalary c) (rows_salary (rows jobsRes)) then
    throw (BadRequestError "No jobs found meeting minimum salary")
  else ret (rows jobsRes).

(** The single read each filter issues. *)
Definition company_call (c : company_criteria) : QueryCall :=
  {| q_text := fst (company_query c); q_values := snd (company_query c) |}.

Definition job_call (c : job_criteria) : QueryCall :=
  {| q_text := fst (job_query c); q_values := snd (job_query c) |}.

(** Positional correspondence of a clause with its bind values. *)
Definition aligned (st : list token * list JSVal) : Prop :=
  placeholders (fst st) = seq 1 (length (snd st)).

(* ================================================================== *)
(** ** The other model functions of [Company] and [Job]

    These read rows as plain JavaScript objects, as node-postgres returns
    them: the column (or alias) names with their values. *)

Abbreviation obj := (list (string * JSVal)).

(** [o[k]]: the value of the first property named [k]; [undefined] if
    absent. *)
Fixpoint obj_get (o : obj) (k : string) : JSVal :=
  match o with
  | [] => JUndefined
  | (k', v) :: rest => if String.eqb k k' then v else obj_get rest k
  end.

(** [delete o[k]]. *)
Definition obj_delete (o : obj) (k : string) : obj :=
  List.filter (fun kv => negb (String.eqb (fst kv) k)) o.

(** [`${v}`] for the values that reach the error messages. *)
Definition js_to_string (v : JSVal) : string :=
  match v with
  | JUndefined => "undefined"
  | JNull => "null"
  | JBool true => "true"
  | JBool false => "false"
  | JNum z => string_of_Z z
  | JStr s => s
  end.

(** [res.rows[0]]. *)
Definition first_row (r : query_result obj) : option obj := head (rows r).

Definition quoted (s : string) : string := (dq ++ s ++ dq)%string.

Definition company_columns : string :=
  ("handle, name, description, num_employees AS " ++ quoted "numEmployees" ++
   ", logo_url AS " ++ quoted "logoUrl")%string.

Definition job_columns : string :=
  ("id, title, salary, equity, company_handle AS " ++ quoted "companyHandle")%string.



Definition company_get_call (handle : JSVal) : QueryCall :=
  {| q_text := [Lit ("SELECT " ++ company_columns ++ " FROM companies WHERE handle = ")%string; Ph 1];
     q_values := [handle] |}.

Definition company_get (handle : JSVal) : M obj obj :=
  companyRes <- db_query (company_get_call handle) ;;
  match first_row companyRes with
  | None => throw (NotFoundError ("No company: " ++ js_to_string handle)%string)
  | Some company => ret company
  end.

Definition company_update_table : table :=
  {[ "numEmployees" := "num_employees"; "logoUrl" := "logo_url" ]}%string.

(** The UPDATE statement: [SET ${setCols} WHERE handle = ${handleVarIdx}]
    with [handleVarIdx = "$" + (values.length + 1)]. *)
Definition company_update_call (handle : JSVal) (pu : partial_update) : QueryCall :=
  {| q_text := [Lit "UPDATE companies SET "] ++ setCols pu ++
               [Lit " WHERE handle = "; Ph (length (values pu) + 1);
                Lit (" RETURNING " ++ company_columns)%string];
     q_values := values pu ++ [handle] |}.

Definition company_update (handle : JSVal) (data : payload) : M obj obj :=
  match sqlForPartialUpdate data company_update_table with
  | inl e => throw e
  | inr pu =>
      result <- db_query (company_update_call handle pu) ;;
      match first_row result with
      | None => throw (NotFoundError ("No company: " ++ js_to_string handle)%string)
      | Some company => ret company
      end
  end.

Definition company_remove_call (handle : JSVal) : QueryCall :=
  {| q_text := [Lit "DELETE FROM companies WHERE handle = "; Ph 1; Lit " RETURNING handle"];
     q_values := [handle] |}.

Definition company_remove (handle : JSVal) : M obj unit :=
  result <- db_query (company_remove_call handle) ;;
  match first_row result with
  | None => throw (NotFoundError ("No company: " ++ js_to_string handle)%string)
  | Some _ => ret tt
  end.

(** [Job.create({ title, salary, equity, companyHandle })]. *)
Record job_data := {
  jd_title : JSVal;
  jd_salary : JSVal;
  jd_equity : JSVal;
  jd_companyHandle : JSVal
}.

Definition job_dup_call (title : JSVal) : QueryCall :=
  {| q_text := [Lit "SELECT title FROM jobs WHERE title = "; Ph 1]; q_values := [title] |}.

Definition job_company_check_call (companyHandle : JSVal) : QueryCall :=
  {| q_text := [Lit "SELECT handle FROM companies WHERE handle = "; Ph 1];
     q_values := [companyHandle] |}.

Definition job_insert_call (d : job_data) : QueryCall :=
  {| q_text := [Lit "INSERT INTO jobs (title, salary, equity, company_handle) VALUES (";
                Ph 1; Lit ", "; Ph 2; Lit ", "; Ph 3; Lit ", "; Ph 4;
                Lit (") RETURNING " ++ job_columns)%string];
     q_values := [jd_title d; jd_salary d; jd_equity d; jd_companyHandle d] |}.

Definition job_create (d : job_data) : M obj (option obj) :=
  duplicateCheck <- db_query (job_dup_call (jd_title d)) ;;
  match first_row duplicateCheck with
  | Some _ => throw (BadRequestError ("Duplicate job: " ++ js_to_string (jd_title d))%string)
  | None =>
      companyCheck <- db_query (job_company_check_call (jd_companyHandle d)) ;;
      match first_row companyCheck with
      | None =>
          throw (BadRequestError ("Company does not exist: " ++
                                  js_to_string (jd_companyHandle d))%string)
      | Some _ =>
          result <- db_query (job_insert_call d) ;;
          ret (first_row result)
      end
  end.

Definition job_get_call (id : JSVal) : QueryCall :=
  {| q_text := [Lit ("SELECT " ++ job_columns ++ " FROM jobs WHERE id = ")%string; Ph 1];
     q_values := [id] |}.

(** The object [Job.get] returns: the job row with [companyHandle]
    deleted and a [company] property added. *)
Record job_with_company := {
  job_fields : obj;
  company : option obj
}.

Definition job_get (id : JSVal) : M obj job_with_company :=
  jobRes <- db_query (job_get_call id) ;;
  match first_row jobRes with
  | None => throw (NotFoundError ("No job: " ++ js_to_string id)%string)
  | Some job =>
      companyRes <- db_query (company_get_call (obj_get job "companyHandle")) ;;
      ret {| job_fields := obj_delete job "companyHandle";
             company := first_row companyRes |}
  end.

Definition job_update_table : table :=
  {[ "companyHandle" := "company_handle" ]}%string.

Definition job_update_call (id : JSVal) (pu : partial_update) : QueryCall :=
  {| q_text := [Lit "UPDATE jobs SET "] ++ setCols pu ++
               [Lit " WHERE id = "; Ph (length (values pu) + 1);
                Lit (" RETURNING " ++ job_columns)%string];
     q_values := values pu ++ [id] |}.

Definition job_update (id : JSVal) (data : payload) : M obj obj :=
  match sqlForPartialUpdate data job_update_table with
  | inl e => throw e
  | inr pu =>
      result <- db_query (job_update_call id pu) ;;
      match first_row result with
      | None => throw (NotFoundError ("No job: " ++ js_to_string id)%string)
      | Some job => ret job
      end
  end.

Definition job_remove_call (id : JSVal) : QueryCall :=
  {| q_text := [Lit "DELETE FROM jobs WHERE id = "; Ph 1; Lit " RETURNING id"];
     q_values := [id] |}.

Definition job_remove (id : JSVal) : M obj unit :=
  result <- db_query (job_remove_call id) ;;
  match first_row result with
  | None => throw (NotFoundError ("No job: " ++ js_to_string id)%string)
  | Some _ => ret tt
  end.

(* ================================================================== *)
(** ** Lemmas *)

Lemma placeholders_app (xs ys : list token) :
  placeholders (xs ++ ys) = placeholders xs ++ placeholders ys.
Proof.
  induction xs as [|[s|n] xs IH]; simpl; [done | done | by rewrite IH].
Qed.

Lemma add_filter_aligned st pre v :
  aligned st -> aligned (add_filter st pre v).
Proof.
  destruct st as [q vs]. unfold aligned, add_filter. simpl. intros H.
  rewrite placeholders_app, H, length_app. simpl.
  rewrite Nat.add_1_r, seq_S. reflexivity.
Qed.

Lemma company_query_aligned c : aligned (company_query c).
Proof.
  unfold company_query.
  destruct (name c), (minEmployees c), (maxEmployees c);
    repeat apply add_filter_aligned; reflexivity.
Qed.

Lemma placeholders_cols (jsToSql : table) (keys : list string) (k : nat) :
  placeholders (join ", " (map_idx (col_fragment jsToSql) k keys))
  = seq (S k) (length keys).
Proof.
  revert k. induction keys as [|x keys IH]; intros k; [done|].
  destruct keys as [|y keys].
  - simpl. by rewrite Nat.add_1_r.
  - change (join ", " (map_idx (col_fragment jsToSql) k (x :: y :: keys)))
      with (col_fragment jsToSql x k ++ Lit ", "
              :: join ", " (map_idx (col_fragment jsToSql) (S k) (y :: keys))).
    rewrite placeholders_app. cbn [placeholders col_fragment app]. rewrite IH. simpl. by rewrite Nat.add_1_r.

Qed.

Lemma sqlForPartialUpdate_cons (dataToUpdate : payload) (jsToSql : table) :
  dataToUpdate <> [] ->
  sqlForPartialUpdate dataToUpdate jsToSql
  = inr {| setCols := join ", " (map_idx (col_fragment jsToSql) 0
                                   (map fst dataToUpdate));
           values := map snd dataToUpdate |}.
Proof.
  intros H. unfold sqlForPartialUpdate.
  destruct dataToUpdate; [congruence | reflexivity].
Qed.

Lemma sqlForPartialUpdate_aligned (dataToUpdate : payload) (jsToSql : table)
  (r : partial_update) :
  sqlForPartialUpdate dataToUpdate jsToSql = inr r ->
  aligned (setCols r, values r).
Proof.
  destruct dataToUpdate as [|kv rest]; [discriminate|].
  rewrite sqlForPartialUpdate_cons by discriminate.
  intros H. injection H as <-. unfold aligned.
  change (placeholders (join ", " (map_idx (col_fragment jsToSql) 0
                                     (map fst (kv :: rest))))
          = seq 1 (length (map snd (kv :: rest)))).
  rewrite placeholders_cols, !length_map. reflexivity.
Qed.

Lemma job_query_aligned_without_equity c :
  hasEquity c <> Some true -> aligned (job_query c).
Proof.
  intros H. unfold job_query.
  destruct (hasEquity c) as [[|]|]; [congruence| |];
  destruct (title c), (minSalary c); repeat apply add_filter_aligned; reflexivity.
Qed.

Lemma company_call_eq c q vs :
  company_query c = (q, vs) -> company_call c = {| q_text := q; q_values := vs |}.
Proof. unfold company_call. by intros ->. Qed.

Lemma job_call_eq c q vs :
  job_query c = (q, vs) -> job_call c = {| q_text := q; q_values := vs |}.
Proof. unfold job_call. by intros ->. Qed.

Lemma company_range_guard c :
  match minEmployees c, maxEmployees c with
  | Some _, Some _ => js_gt (minEmployees c) (maxEmployees c)
  | _, _ => false
  end = js_gt (minEmployees c) (maxEmployees c).
Proof. by destruct (minEmployees c), (maxEmployees c). Qed.

Ltac run_monad := unfold bind, db_query, throw, ret; cbn -[company_query job_query].

(* ================================================================== *)
(** ** Claims *)

(** C1 (code_bug).  The placeholders of a generated clause are numbered
    1..n for its n bind values.  [Job.filter] breaks this: the equity
    criterion appends text without a placeholder but still pushes
    [hasEquity], so [{hasEquity: true}] gives a query with no placeholder
    and one bind value.  (The company filter and the partial-update builder
    keep the correspondence: [company_query_aligned],
    [sqlForPartialUpdate_aligned].) *)
Theorem job_filter_hasEquity_unaligned :
  job_query {| title := None; minSalary := None; hasEquity := Some true |}
  = ([Lit job_base; Lit " AND equity > 0"], [JBool true]) /\
  ~ aligned (job_query {| title := None; minSalary := None;
                          hasEquity := Some true |}).
Proof. split; [reflexivity | discriminate]. Qed.

(** A job row used in the concrete runs below. *)
Definition row_j1 : JobRow :=
  {| j_id := 1; j_title := "j1"; j_salary := Some 300%Z;
     j_equity := None; j_companyHandle := "c1" |}.

(** C2 (counterexample).  [Job.filter] has no upper bound: with the claim's
    [{minSalary: 300, maxSalary: 100}] the [maxSalary] is dropped by the
    destructuring, the store is read and rows are returned. *)
Lemma job_filter_no_range_check :
  job_filter {| title := None; minSalary := Some 300%Z; hasEquity := None |}
             (fun _ => [row_j1])
  = ([job_call {| title := None; minSalary := Some 300%Z; hasEquity := None |}],
     inr [row_j1]).
Proof. reflexivity. Qed.

(** C2 (amended).  When both company bounds are given and
    [minEmployees > maxEmployees], [Company.filter] throws the range
    [BadRequestError] without reading the store; [Job.filter] makes no range
    check and always issues exactly its one read. *)
Theorem company_filter_range_before_read (c : company_criteria) (m x : Z)
  (Hm : minEmployees c = Some m) (Hx : maxEmployees c = Some x)
  (Hlt : (x < m)%Z) (db : store CompanyRow)
  (jc : job_criteria) (jdb : store JobRow) :
  company_filter c db = ([], inl (BadRequestError range_msg)) /\
  fst (job_filter jc jdb) = [job_call jc].
Proof.
  split.
  - unfold company_filter. destruct (company_query c) as [q vs].
    rewrite Hm, Hx. cbn. replace (Z.gtb m x) with true by lia. reflexivity.
  - unfold job_filter. destruct (job_query jc) as [q vs] eqn:E.
    rewrite (job_call_eq _ _ _ E). run_monad.
    destruct (Nat.eqb _ 0); [reflexivity|].
    unfold rows_salary, js_gt. destruct (minSalary jc); reflexivity.
Qed.

Lemma company_filter_range_before_read_witness :
  minEmployees {| name := None; minEmployees := Some 300%Z;
                  maxEmployees := Some 100%Z |} = Some 300%Z /\
  company_filter {| name := None; minEmployees := Some 300%Z;
                    maxEmployees := Some 100%Z |} (fun _ => [])
  = ([], inl (BadRequestError range_msg)).
Proof.
  split; [reflexivity|].
  apply (proj1 (company_filter_range_before_read
                  {| name := None; minEmployees := Some 300%Z;
                     maxEmployees := Some 100%Z |} 300 100
                  eq_refl eq_refl ltac:(lia) (fun _ => [])
                  {| title := None; minSalary := None; hasEquity := None |}
                  (fun _ => []))).
Defined.

(** C3 (code_bug).  [Company.filter] returns an empty array when the only
    criterion is [maxEmployees] and the read returns no rows: the post-query
    checks cover the range, [minEmployees] and [name] only. *)
Theorem company_filter_max_only_empty :
  company_filter {| name := None; minEmployees := None;
                    maxEmployees := Some 5%Z |} (fun _ => [])
  = ([company_call {| name := None; minEmployees := None;
                      maxEmployees := Some 5%Z |}], inr []).
Proof. reflexivity. Qed.

(** C4.  For a non-empty payload the SET clause is the comma-join of one
    [`"<column>"=$<i>`] fragment per key in enumeration order, its
    placeholders are exactly 1, 2, ..., n for the n keys, and the values are
    the payload's values in the same order. *)
Theorem sqlForPartialUpdate_set_clause (dataToUpdate : payload)
  (jsToSql : table) (H : dataToUpdate <> []) :
  exists r, sqlForPartialUpdate dataToUpdate jsToSql = inr r /\
    setCols r = join ", " (map_idx (col_fragment jsToSql) 0
                             (map fst dataToUpdate)) /\
    placeholders (setCols r) = seq 1 (length dataToUpdate) /\
    values r = map snd dataToUpdate.
Proof.
  rewrite sqlForPartialUpdate_cons by exact H.
  eexists. split; [reflexivity|]. cbn [setCols values].
  split; [reflexivity|]. split; [|reflexivity].
  rewrite placeholders_cols, length_map. reflexivity.
Qed.

Lemma sqlForPartialUpdate_set_clause_witness :
  exists r, sqlForPartialUpdate [("firstName", JStr "Aliya"); ("age", JNum 32)]%string
              {[ "firstName" := "first_name" ]}%string = inr r /\
    setCols r = join ", " (map_idx (col_fragment {[ "firstName" := "first_name" ]}%string) 0
                             ["firstName"; "age"]%string) /\
    placeholders (setCols r) = [1; 2] /\
    values r = [JStr "Aliya"; JNum 32].
Proof.
  apply (sqlForPartialUpdate_set_clause
           [("firstName", JStr "Aliya"); ("age", JNum 32)]%string
           {[ "firstName" := "first_name" ]}%string).
  discriminate.
Defined.

(** C5 (counterexample).  A key the table maps to the empty string is
    emitted under its own name, not under the mapped value: [||] falls back
    on the falsy [""]. *)
Lemma column_empty_mapping_falls_back :
  sqlForPartialUpdate [("a", JNum 1)]%string {[ "a" := EmptyString ]}%string
  = inr {| setCols := [Lit (dq ++ "a" ++ dq ++ "=")%string; Ph 1];
           values := [JNum 1] |} /\
  column_name {[ "a" := EmptyString ]}%string "a" <> EmptyString.
Proof. split; [reflexivity | discriminate]. Qed.

(** C5 (amended).  For a key that is not an inherited [Object.prototype]
    property name: if the table maps it to a non-empty column, the fragment
    names that column; if the table has no entry for it, or maps it to the
    empty string, the fragment names the key itself. *)
Theorem col_fragment_column (jsToSql : table) (k : string) (i : nat)
  (Hk : is_prototype_key k = false) :
  (forall c, jsToSql !! k = Some c -> c <> EmptyString ->
     col_fragment jsToSql k i
     = [Lit (dq ++ c ++ dq ++ "=")%string; Ph (i + 1)]) /\
  (jsToSql !! k = None ->
     col_fragment jsToSql k i
     = [Lit (dq ++ k ++ dq ++ "=")%string; Ph (i + 1)]) /\
  (jsToSql !! k = Some EmptyString ->
     col_fragment jsToSql k i
     = [Lit (dq ++ k ++ dq ++ "=")%string; Ph (i + 1)]).
Proof.
  unfold col_fragment, column_name.
  split; [|split]; intros.
  - rewrite H. destruct (String.eqb_spec c EmptyString); [congruence|].
    reflexivity.
  - by rewrite H, Hk.
  - by rewrite H.
Qed.

Lemma col_fragment_column_witness :
  col_fragment {[ "numEmployees" := "num_employees" ]}%string "numEmployees" 0
  = [Lit (dq ++ "num_employees" ++ dq ++ "=")%string; Ph 1].
Proof.
  apply (proj1 (col_fragment_column {[ "numEmployees" := "num_employees" ]}%string
                  "numEmployees" 0 eq_refl)); [reflexivity | discriminate].
Defined.

(** C6.  [sqlForPartialUpdate] throws [BadRequestError "No data"] exactly
    when the payload has no entries, and throws nothing else. *)
Theorem sqlForPartialUpdate_no_data (dataToUpdate : payload) (jsToSql : table) :
  (sqlForPartialUpdate dataToUpdate jsToSql = inl (BadRequestError "No data")
   <-> dataToUpdate = []) /\
  (forall e, sqlForPartialUpdate dataToUpdate jsToSql = inl e ->
     dataToUpdate = [] /\ e = BadRequestError "No data").
Proof.
  destruct dataToUpdate as [|kv rest].
  - split; [done|]. intros e [= <-]. done.
  - rewrite sqlForPartialUpdate_cons by discriminate.
    split; [split; discriminate|]. discriminate.
Qed.

(** C7.  Error preference of [Company.filter]: a range violation is
    reported first (before any read); after an empty read with no range
    violation, a truthy [minEmployees] is reported even when a name is also
    given; the name is reported only when [minEmployees] is absent or 0. *)
Theorem company_filter_error_preference (c : company_criteria)
  (db : store CompanyRow) :
  (js_gt (minEmployees c) (maxEmployees c) = true ->
     company_filter c db = ([], inl (BadRequestError range_msg))) /\
  (forall m, db (company_call c) = [] ->
     js_gt (minEmployees c) (maxEmployees c) = false ->
     minEmployees c = Some m -> m <> 0%Z ->
     snd (company_filter c db)
     = inl (NotFoundError ("No companies found with less than " ++
                           string_of_Z m ++ " employees")%string)) /\
  (forall n, db (company_call c) = [] ->
     js_gt (minEmployees c) (maxEmployees c) = false ->
     truthy_num (minEmployees c) = false ->
     name c = Some n -> n <> EmptyString ->
     snd (company_filter c db)
     = inl (NotFoundError ("No companies found with name: " ++ n)%string)).
Proof.
  unfold company_filter. destruct (company_query c) as [q vs] eqn:E.
  rewrite (company_call_eq _ _ _ E), company_range_guard.
  split; [|split].
  - intros ->. reflexivity.
  - intros m Hdb Hgt Hm Hm0. rewrite Hgt. run_monad. rewrite Hdb. cbn.
    rewrite Hm. cbn. destruct (Z.eqb_spec m 0); [congruence|]. reflexivity.
  - intros n Hdb Hgt Hmin Hn Hn0. rewrite Hgt. run_monad. rewrite Hdb. cbn.
    rewrite Hmin, Hn. cbn.
    destruct (String.eqb_spec n EmptyString); [congruence|]. reflexivity.
Qed.

(** C8.  [sqlForPartialUpdate] is a pure function of its inputs (its result
    type carries no store and no log): the same ordered payload and a table
    with the same entries, however it was built, give the same clause and
    values, hence the same rendered text. *)
Theorem sqlForPartialUpdate_deterministic (p1 p2 : payload) (t1 t2 : table)
  (Hp : p1 = p2) (Ht : forall k, t1 !! k = t2 !! k) :
  sqlForPartialUpdate p1 t1 = sqlForPartialUpdate p2 t2.
Proof. subst p2. apply map_eq in Ht. by subst t2. Qed.

Lemma sqlForPartialUpdate_deterministic_witness :
  sqlForPartialUpdate [("numEmployees", JNum 10); ("logoUrl", JNull)]%string
    (<["logoUrl" := "logo_url"]> {[ "numEmployees" := "num_employees" ]})%string
  = sqlForPartialUpdate [("numEmployees", JNum 10); ("logoUrl", JNull)]%string
    (<["numEmployees" := "num_employees"]> {[ "logoUrl" := "logo_url" ]})%string.
Proof.
  apply sqlForPartialUpdate_deterministic; [reflexivity|].
  intros k. f_equal.
Defined.

(** C9.  A key whose value is [undefined] is still a key: the builder does
    not throw, emits a [`"field"=$1`] fragment and binds [undefined]; the
    filters, by contrast, add nothing for undefined criteria. *)
Theorem sqlForPartialUpdate_undefined_value (jsToSql : table) (k : string)
  (Hk : jsToSql !! k = None) (Hp : is_prototype_key k = false) :
  sqlForPartialUpdate [(k, JUndefined)] jsToSql
  = inr {| setCols := [Lit (dq ++ k ++ dq ++ "=")%string; Ph 1];
           values := [JUndefined] |} /\
  job_query {| title := None; minSalary := None; hasEquity := None |}
  = ([Lit job_base], []) /\
  company_query {| name := None; minEmployees := None; maxEmployees := None |}
  = ([Lit company_base], []).
Proof.
  split; [|split; reflexivity].
  unfold sqlForPartialUpdate, col_fragment, column_name. cbn.
  by rewrite Hk, Hp.
Qed.

Lemma sqlForPartialUpdate_undefined_value_witness :
  sqlForPartialUpdate [("field", JUndefined)]%string (∅ : gmap string string)
  = inr {| setCols := [Lit (dq ++ "field" ++ dq ++ "=")%string; Ph 1];
           values := [JUndefined] |}.
Proof.
  refine (proj1 (sqlForPartialUpdate_undefined_value ∅ "field" _ _)); reflexivity.
Defined.

(** C10.  Every error [Job.filter] throws is [BadRequestError "No jobs
    found"], and it throws it whenever the read returns no rows: the
    [NotFoundError] branch ([jobsRes] is always truthy) and the
    minimum-salary branch ([jobsRes.rows.salary] is [undefined]) are never
    taken. *)
Theorem job_filter_only_bad_request (c : job_criteria) (db : store JobRow) :
  (forall e, snd (job_filter c db) = inl e -> e = BadRequestError "No jobs found") /\
  (db (job_call c) = [] ->
     snd (job_filter c db) = inl (BadRequestError "No jobs found")).
Proof.
  unfold job_filter. destruct (job_query c) as [q vs] eqn:E.
  rewrite (job_call_eq _ _ _ E). run_monad.
  split.
  - intros e. destruct (Nat.eqb _ 0); [by intros [= <-]|].
    unfold rows_salary, js_gt. destruct (minSalary c); discriminate.
  - by intros ->.
Qed.

(* ================================================================== *)
(** ** Further properties of the model functions *)

Lemma job_query_aligned_without_equity_witness :
  aligned (job_query {| title := Some "j"%string; minSalary := Some 100%Z;
                        hasEquity := Some false |}).
Proof. apply job_query_aligned_without_equity. discriminate. Defined.

(** The text of the company filter's query depends only on which criteria
    are present, never on their values: the values reach the store only as
    bind parameters. *)
Theorem company_query_text_shape (c1 c2 : company_criteria)
  (Hn : name c1 = None <-> name c2 = None)
  (Hmin : minEmployees c1 = None <-> minEmployees c2 = None)
  (Hmax : maxEmployees c1 = None <-> maxEmployees c2 = None) :
  fst (company_query c1) = fst (company_query c2).
Proof.
  destruct c1 as [n1 a1 b1], c2 as [n2 a2 b2]; cbn in *. unfold company_query; cbn.
  destruct n1, n2, a1, a2, b1, b2; try reflexivity; exfalso; naive_solver.
Qed.

Lemma company_query_text_shape_witness :
  fst (company_query {| name := Some "acme"%string; minEmployees := Some 1%Z;
                        maxEmployees := None |})
  = fst (company_query {| name := Some "x' OR 1=1 --"%string;
                          minEmployees := Some 99%Z; maxEmployees := None |}).
Proof. apply company_query_text_shape; cbn; split; discriminate || done. Defined.

(** The same for the jobs filter: its text depends only on whether [title]
    and [minSalary] are present and whether [hasEquity] is [true]. *)
Theorem job_query_text_shape (c1 c2 : job_criteria)
  (Ht : title c1 = None <-> title c2 = None)
  (Hm : minSalary c1 = None <-> minSalary c2 = None)
  (He : hasEquity c1 = Some true <-> hasEquity c2 = Some true) :
  fst (job_query c1) = fst (job_query c2).
Proof.
  destruct c1 as [t1 m1 e1], c2 as [t2 m2 e2]; cbn in *. unfold job_query; cbn.
  destruct t1, t2, m1, m2; try (exfalso; naive_solver);
  destruct e1 as [[|]|], e2 as [[|]|]; try reflexivity; exfalso; naive_solver.
Qed.

Lemma job_query_text_shape_witness :
  fst (job_query {| title := Some "a"%string; minSalary := None; hasEquity := None |})
  = fst (job_query {| title := Some "b"%string; minSalary := None;
                      hasEquity := Some false |}).
Proof.
  apply job_query_text_shape; cbn; split; try discriminate; done.
Defined.

(** The SET clause of [sqlForPartialUpdate] depends only on the payload's
    keys (and the table), never on its values. *)
Theorem sqlForPartialUpdate_setCols_keys_only (p1 p2 : payload) (jsToSql : table)
  (Hk : map fst p1 = map fst p2) :
  match sqlForPartialUpdate p1 jsToSql, sqlForPartialUpdate p2 jsToSql with
  | inr r1, inr r2 => setCols r1 = setCols r2
  | inl e1, inl e2 => e1 = e2
  | _, _ => False
  end.
Proof.
  unfold sqlForPartialUpdate. rewrite Hk.
  destruct (Nat.eqb (length (map fst p2)) 0); reflexivity.
Qed.

Lemma sqlForPartialUpdate_setCols_keys_only_witness :
  match sqlForPartialUpdate [("name", JStr "A")]%string company_update_table,
        sqlForPartialUpdate [("name", JStr "B")]%string company_update_table with
  | inr r1, inr r2 => setCols r1 = setCols r2
  | inl e1, inl e2 => e1 = e2
  | _, _ => False
  end.
Proof. apply sqlForPartialUpdate_setCols_keys_only. reflexivity. Defined.

(** When the range check passes and the read returns rows, [Company.filter]
    returns exactly those rows after its one read. *)
Theorem company_filter_returns_rows (c : company_criteria) (db : store CompanyRow)
  (Hr : js_gt (minEmployees c) (maxEmployees c) = false)
  (Hdb : db (company_call c) <> []) :
  company_filter c db = ([company_call c], inr (db (company_call c))).
Proof.
  unfold company_filter. destruct (company_query c) as [q vs] eqn:E.
  rewrite (company_call_eq _ _ _ E) in *. rewrite company_range_guard, Hr.
  run_monad. destruct (db _) as [|r rs]; [congruence|]. reflexivity.
Qed.

Lemma company_filter_returns_rows_witness :
  company_filter {| name := None; minEmployees := Some 1%Z; maxEmployees := Some 9%Z |}
    (fun _ => [{| c_handle := "c1"; c_name := "C1"; c_description := "d";
                  c_numEmployees := Some 3%Z; c_logoUrl := None |}])%string
  = ([company_call {| name := None; minEmployees := Some 1%Z; maxEmployees := Some 9%Z |}],
     inr [{| c_handle := "c1"; c_name := "C1"; c_description := "d";
             c_numEmployees := Some 3%Z; c_logoUrl := None |}])%string.
Proof. apply company_filter_returns_rows; [reflexivity | discriminate]. Defined.

(** When its read returns rows, [Job.filter] returns exactly those rows. *)
Theorem job_filter_returns_rows (c : job_criteria) (db : store JobRow)
  (Hdb : db (job_call c) <> []) :
  job_filter c db = ([job_call c], inr (db (job_call c))).
Proof.
  unfold job_filter. destruct (job_query c) as [q vs] eqn:E.
  rewrite (job_call_eq _ _ _ E) in *. run_monad.
  destruct (db _) as [|r rs]; [congruence|]. cbn.
  unfold rows_salary, js_gt. destruct (minSalary c); reflexivity.
Qed.

Lemma job_filter_returns_rows_witness :
  job_filter {| title := None; minSalary := Some 300%Z; hasEquity := None |}
    (fun _ => [row_j1])
  = ([job_call {| title := None; minSalary := Some 300%Z; hasEquity := None |}],
     inr [row_j1]).
Proof. apply job_filter_returns_rows. discriminate. Defined.

(** [Company.update] and [Job.update] with an empty payload throw
    [BadRequestError "No data"] and never touch the store. *)
Theorem update_no_data (handle id : JSVal) (db : store obj) :
  company_update handle [] db = ([], inl (BadRequestError "No data")) /\
  job_update id [] db = ([], inl (BadRequestError "No data")).
Proof. split; reflexivity. Qed.

Lemma update_call_aligned (pu : partial_update) (w : string)
  (extra : list token) (key : JSVal) (pre : list token) :
  placeholders pre = [] -> placeholders extra = [] ->
  aligned (setCols pu, values pu) ->
  aligned (pre ++ setCols pu ++ Lit w :: Ph (length (values pu) + 1) :: extra,
           values pu ++ [key]).
Proof.
  unfold aligned. cbn [fst snd]. intros Hp He H.
  rewrite !placeholders_app, Hp, H. cbn. rewrite He, length_app.
  cbn. rewrite Nat.add_1_r, seq_S. reflexivity.
Qed.

(** For a non-empty payload, [Company.update] issues exactly one read: the
    UPDATE whose placeholders are 1..n+1 for the n payload values followed by
    the handle, bound last.  It throws [NotFoundError "No company: ..."] when
    that read returns no row, and returns the first row otherwise. *)
Theorem company_update_nonempty (handle : JSVal) (data : payload)
  (db : store obj) (H : data <> []) :
  exists pu, sqlForPartialUpdate data company_update_table = inr pu /\
    fst (company_update handle data db) = [company_update_call handle pu] /\
    aligned (q_text (company_update_call handle pu),
             q_values (company_update_call handle pu)) /\
    q_values (company_update_call handle pu) = map snd data ++ [handle] /\
    snd (company_update handle data db)
    = match db (company_update_call handle pu) with
      | [] => inl (NotFoundError ("No company: " ++ js_to_string handle)%string)
      | company :: _ => inr company
      end.
Proof.
  destruct (sqlForPartialUpdate data company_update_table) as [e|pu] eqn:E.
  { destruct (sqlForPartialUpdate_no_data data company_update_table) as [_ He].
    destruct (He e E); congruence. }
  exists pu. split; [reflexivity|].
  unfold company_update. rewrite E. run_monad.
  split; [destruct (db _); reflexivity|].
  split.
  - unfold company_update_call. cbn [q_text q_values].
    apply (update_call_aligned pu _ _ handle [Lit "UPDATE companies SET "]);
      [reflexivity | reflexivity | exact (sqlForPartialUpdate_aligned _ _ _ E)].
  - split; [|destruct (db _); reflexivity].
    unfold company_update_call. cbn [q_values]. f_equal.
    rewrite sqlForPartialUpdate_cons in E by exact H. by injection E as <-.
Qed.

Lemma company_update_nonempty_witness :
  exists pu, sqlForPartialUpdate [("numEmployees", JNum 5)]%string company_update_table = inr pu /\
    fst (company_update (JStr "c1") [("numEmployees", JNum 5)]%string (fun _ => []))
    = [company_update_call (JStr "c1") pu] /\
    aligned (q_text (company_update_call (JStr "c1") pu),
             q_values (company_update_call (JStr "c1") pu)) /\
    q_values (company_update_call (JStr "c1") pu) = [JNum 5; JStr "c1"] /\
    snd (company_update (JStr "c1") [("numEmployees", JNum 5)]%string (fun _ => []))
    = match (fun _ : QueryCall => @nil obj) (company_update_call (JStr "c1") pu) with
      | [] => inl (NotFoundError ("No company: " ++ js_to_string (JStr "c1"))%string)
      | company :: _ => inr company
      end.
Proof.
  apply (company_update_nonempty (JStr "c1") [("numEmployees", JNum 5)]%string
           (fun _ => [])).
  discriminate.
Defined.

(** The same for [Job.update], with the id bound last and
    [NotFoundError "No job: ..."]. *)
Theorem job_update_nonempty (id : JSVal) (data : payload)
  (db : store obj) (H : data <> []) :
  exists pu, sqlForPartialUpdate data job_update_table = inr pu /\
    fst (job_update id data db) = [job_update_call id pu] /\
    aligned (q_text (job_update_call id pu), q_values (job_update_call id pu)) /\
    q_values (job_update_call id pu) = map snd data ++ [id] /\
    snd (job_update id data db)
    = match db (job_update_call id pu) with
      | [] => inl (NotFoundError ("No job: " ++ js_to_string id)%string)
      | job :: _ => inr job
      end.
Proof.
  destruct (sqlForPartialUpdate data job_update_table) as [e|pu] eqn:E.
  { destruct (sqlForPartialUpdate_no_data data job_update_table) as [_ He].
    destruct (He e E); congruence. }
  exists pu. split; [reflexivity|].
  unfold job_update. rewrite E. run_monad.
  split; [destruct (db _); reflexivity|].
  split.
  - unfold job_update_call. cbn [q_text q_values].
    apply (update_call_aligned pu _ _ id [Lit "UPDATE jobs SET "]);
      [reflexivity | reflexivity | exact (sqlForPartialUpdate_aligned _ _ _ E)].
  - split; [|destruct (db _); reflexivity].
    unfold job_update_call. cbn [q_values]. f_equal.
    rewrite sqlForPartialUpdate_cons in E by exact H. by injection E as <-.
Qed.

Lemma job_update_nonempty_witness :
  exists pu, sqlForPartialUpdate [("salary", JNum 10)]%string job_update_table = inr pu /\
    fst (job_update (JNum 1) [("salary", JNum 10)]%string (fun _ => []))
    = [job_update_call (JNum 1) pu] /\
    aligned (q_text (job_update_call (JNum 1) pu), q_values (job_update_call (JNum 1) pu)) /\
    q_values (job_update_call (JNum 1) pu) = [JNum 10; JNum 1] /\
    snd (job_update (JNum 1) [("salary", JNum 10)]%string (fun _ => []))
    = match (fun _ : QueryCall => @nil obj) (job_update_call (JNum 1) pu) with
      | [] => inl (NotFoundError ("No job: " ++ js_to_string (JNum 1))%string)
      | job :: _ => inr job
      end.
Proof.
  apply (job_update_nonempty (JNum 1) [("salary", JNum 10)]%string (fun _ => [])).
  discriminate.
Defined.

(** [Company.get] makes one read, binding the handle as [$1], throws
    [NotFoundError "No company: <handle>"] exactly when it returns no row,
    and otherwise returns the first row. *)
Theorem company_get_spec (handle : JSVal) (db : store obj) :
  fst (company_get handle db) = [company_get_call handle] /\
  snd (company_get handle db)
  = match db (company_get_call handle) with
    | [] => inl (NotFoundError ("No company: " ++ js_to_string handle)%string)
    | company :: _ => inr company
    end.
Proof. unfold company_get. run_monad. by destruct (db _). Qed.

(** [Company.remove] and [Job.remove] make one DELETE read binding the key
    as [$1], throw [NotFoundError] exactly when it returns no row, and
    otherwise return [undefined]. *)
Theorem remove_spec (handle id : JSVal) (db : store obj) :
  company_remove handle db
  = ([company_remove_call handle],
     match db (company_remove_call handle) with
     | [] => inl (NotFoundError ("No company: " ++ js_to_string handle)%string)
     | _ :: _ => inr tt
     end) /\
  job_remove id db
  = ([job_remove_call id],
     match db (job_remove_call id) with
     | [] => inl (NotFoundError ("No job: " ++ js_to_string id)%string)
     | _ :: _ => inr tt
     end).
Proof. unfold company_remove, job_remove. run_monad. by split; destruct (db _). Qed.


(** [Job.create] checks in order: a duplicate title throws
    [BadRequestError "Duplicate job: ..."] after one read; a company handle
    with no company throws [BadRequestError "Company does not exist: ..."]
    after two reads; otherwise the INSERT, binding title, salary, equity and
    companyHandle as [$1]..[$4], is the third read and its first row is
    returned. *)
Theorem job_create_spec (d : job_data) (db : store obj) :
  (db (job_dup_call (jd_title d)) <> [] ->
   job_create d db
   = ([job_dup_call (jd_title d)],
      inl (BadRequestError ("Duplicate job: " ++ js_to_string (jd_title d))%string))) /\
  (db (job_dup_call (jd_title d)) = [] ->
   db (job_company_check_call (jd_companyHandle d)) = [] ->
   job_create d db
   = ([job_dup_call (jd_title d); job_company_check_call (jd_companyHandle d)],
      inl (BadRequestError ("Company does not exist: " ++
                            js_to_string (jd_companyHandle d))%string))) /\
  (db (job_dup_call (jd_title d)) = [] ->
   db (job_company_check_call (jd_companyHandle d)) <> [] ->
   job_create d db
   = ([job_dup_call (jd_title d); job_company_check_call (jd_companyHandle d);
       job_insert_call d], inr (head (db (job_insert_call d))))) /\
  aligned (q_text (job_insert_call d), q_values (job_insert_call d)).
Proof.
  unfold job_create. run_monad.
  split; [|split; [|split]].
  - intros Hd. destruct (db (job_dup_call _)); [congruence | reflexivity].
  - intros Hd Hc. rewrite Hd. cbn. by rewrite Hc.
  - intros Hd Hc. rewrite Hd. cbn.
    destruct (db (job_company_check_call _)); [congruence | reflexivity].
  - reflexivity.
Qed.

Lemma obj_get_delete (o : obj) (k k' : string) :
  obj_get (obj_delete o k) k' = if String.eqb k' k then JUndefined else obj_get o k'.
Proof.
  induction o as [|[k0 v] o IH]; unfold obj_delete in *; cbn.
  - by destruct (String.eqb k' k).
  - destruct (String.eqb_spec k0 k) as [->|Hne]; cbn; rewrite IH.
    + by destruct (String.eqb k' k).
    + destruct (String.eqb_spec k' k0), (String.eqb_spec k' k);
        congruence || reflexivity.
Qed.

(** [Job.get]: with no job row it throws [NotFoundError "No job: <id>"]
    after one read; otherwise the second read looks the company up by the
    job's [companyHandle], and the result has the job's properties except
    [companyHandle] (now [undefined]) and, as [company], the first company
    row, if any. *)
Theorem job_get_spec (id : JSVal) (db : store obj) :
  (db (job_get_call id) = [] ->
   job_get id db = ([job_get_call id],
                    inl (NotFoundError ("No job: " ++ js_to_string id)%string))) /\
  (forall job rest, db (job_get_call id) = job :: rest ->
   exists r,
     job_get id db
     = ([job_get_call id; company_get_call (obj_get job "companyHandle")], inr r) /\
     company r = head (db (company_get_call (obj_get job "companyHandle"))) /\
     obj_get (job_fields r) "companyHandle" = JUndefined /\
     (forall k, k <> "companyHandle"%string ->
        obj_get (job_fields r) k = obj_get job k)).
Proof.
  unfold job_get. run_monad. split.
  - by intros ->.
  - intros job rest Hj. rewrite Hj. cbn. eexists. split; [reflexivity|].
    cbn [company job_fields]. split; [reflexivity|]. split.
    + by rewrite obj_get_delete.
    + intros k Hk. rewrite obj_get_delete.
      destruct (String.eqb_spec k "companyHandle"); congruence.
Qed.

